(** * H2OAutoMLBaseMixin.get_best_model (h2o-py/h2o/automl/_base.py)

    A shallow embedding of the "best model of a family" selection of the
    AutoML client mixin, with the statements of its specification settled
    against it.

    Strings are byte strings ([string]); identifiers, column names and
    family tags of the leaderboard are ASCII.  Metric values are rationals
    ([Q]): the order on them is all the selection uses, and missing values
    are left out.  The calls that leave the mixin ([self.leader],
    [self.leaderboard], [h2o.get_model]) are recorded in a trace, exceptions
    are results. *)

From Stdlib Require Import QArith Ascii String.
From stdpp Require Import gmap strings list sorting.

(** ** Python strings *)

Definition dquote : string := String (ascii_of_nat 34) EmptyString.

(** [str.lower()] on ASCII text: [A]..[Z] are moved to [a]..[z]. *)
Definition lower_ascii (c : ascii) : ascii :=
  let n := nat_of_ascii c in
  if (65 <=? n)%nat && (n <=? 90)%nat then ascii_of_nat (n + 32) else c.

Fixpoint lower (s : string) : string :=
  match s with
  | EmptyString => EmptyString
  | String c s' => String (lower_ascii c) (lower s')
  end.

(** [x in l] for a Python list of strings. *)
Definition str_in (x : string) (l : list string) : bool :=
  existsb (String.eqb x) l.

(** ** Exceptions and the trace of outgoing calls *)

Inductive exn : Type :=
| H2OValueError (msg : string)
| KeyError (key : string)
| AttributeError (msg : string)
| IndexError (msg : string)
| H2OServerError.             (* raised by the backend; its message is left out *)

Inductive event : Type :=
| ReadLeader
| ReadLeaderboard
| GetModel (model_id : string).

Definition M (A : Type) : Type := (list event * (exn + A))%type.

Definition ret {A : Type} (a : A) : M A := ([], inr a).
Definition raise {A : Type} (e : exn) : M A := ([], inl e).
Definition emit (ev : event) : M unit := ([ev], inr tt).

Definition bind {A B : Type} (m : M A) (f : A -> M B) : M B :=
  match m with
  | (t, inl e) => (t, inl e)
  | (t, inr a) => (t ++ fst (f a), snd (f a))
  end.

Notation "'let!' x ':=' m 'in' k" := (bind m (fun x => k))
  (at level 10, x name, m at level 100, k at level 200).
Notation "'run!' m 'in' k" := (bind m (fun _ => k))
  (at level 10, m at level 100, k at level 200).

Definition trace {A : Type} (m : M A) : list event := fst m.
Definition outcome {A : Type} (m : M A) : exn + A := snd m.

(** ** Frames *)

(** A leaderboard row: the [model_id] cell and the metric cells, in the
    order of the metric columns. *)
Record Row : Type := mkRow {
  row_model_id : string;
  row_metrics : list Q
}.

(** The leaderboard frame: the [model_id] column comes first, the metric
    columns follow. *)
Record H2OFrame : Type := mkFrame {
  metric_names : list string;
  frame_rows : list Row
}.

Definition columns (fr : H2OFrame) : list string :=
  "model_id" :: metric_names fr.

Definition model_id_column (fr : H2OFrame) : list string :=
  map row_model_id (frame_rows fr).

Fixpoint index_of (name : string) (names : list string) : option nat :=
  match names with
  | [] => None
  | n :: rest =>
      if String.eqb name n then Some 0%nat
      else option_map S (index_of name rest)
  end.

(** [fr[row, by]] for a metric column: the value of a row in the column
    named [by].  A column the frame does not have reads as 0 in every row;
    [get_best_model] sorts by columns of the frame only. *)
Definition metric_at (fr : H2OFrame) (by_ : string) (r : Row) : Q :=
  match index_of by_ (metric_names fr) with
  | Some j => nth j (row_metrics r) 0%Q
  | None => 0%Q
  end.

Section StableSort.
Context {A : Type} (leb : A -> A -> bool).

Fixpoint insert_sorted (x : A) (l : list A) : list A :=
  match l with
  | [] => [x]
  | y :: l' => if leb x y then x :: y :: l' else y :: insert_sorted x l'
  end.

Fixpoint stable_sort (l : list A) : list A :=
  match l with
  | [] => []
  | x :: l' => insert_sorted x (stable_sort l')
  end.
End StableSort.

(** The order a sort by the metric column [by_] puts the rows in. *)
Definition row_leb (fr : H2OFrame) (by_ : string) (ascending : bool)
    (r1 r2 : Row) : bool :=
  if ascending then Qle_bool (metric_at fr by_ r1) (metric_at fr by_ r2)
  else Qle_bool (metric_at fr by_ r2) (metric_at fr by_ r1).

(** The frame with its rows in the order of the metric column [by_]. *)
Definition sorted (fr : H2OFrame) (by_ : string) (ascending : bool) : H2OFrame :=
  mkFrame (metric_names fr)
          (stable_sort (row_leb fr by_ ascending) (frame_rows fr)).

(** Modelled from the spec: [H2OFrame.sort] (h2o-py/h2o/frame.py) is not part
    of the sources at hand.  The specification gives
    [sort(by: column_name, ascending: bool) -> Table], "returning a new table
    view", and asks for a stable sort, "ties broken by pre-existing row
    order", in the determined direction; the columns it sorts by are the
    metrics.  [model_id] is a column of strings, which the backend does not
    sort by: the sort by it ends in [H2OServerError].  The receiver is left
    as it is. *)
Definition sort (fr : H2OFrame) (by_ : string) (ascending : bool) : M H2OFrame :=
  if String.eqb by_ "model_id" then raise H2OServerError
  else ret (sorted fr by_ ascending).

(** ** Patterns *)

(** The fragment of regular expressions the family patterns are written in. *)
Inductive regex : Type :=
| Bol                          (* ^ *)
| Lit (s : string)             (* literal text *)
| Alt (r1 r2 : regex)          (* (r1|r2) *)
| Seq (r1 r2 : regex)          (* r1r2 *)
| NegLook (r : regex).         (* (?!r) *)

Fixpoint drop_string (n : nat) (s : string) : string :=
  match n, s with
  | S n', String _ s' => drop_string n' s'
  | _, _ => s
  end.

(** All the ways [r] matches at offset [pos] of the subject, whose text from
    [pos] on is [s]: the offsets and texts that remain. *)
Fixpoint rmatch (r : regex) (pos : nat) (s : string) : list (nat * string) :=
  match r with
  | Bol => if (pos =? 0)%nat then [(pos, s)] else []
  | Lit l =>
      if String.prefix l s
      then [((pos + String.length l)%nat, drop_string (String.length l) s)]
      else []
  | Alt r1 r2 => rmatch r1 pos s ++ rmatch r2 pos s
  | Seq r1 r2 =>
      flat_map (fun ps => rmatch r2 (fst ps) (snd ps)) (rmatch r1 pos s)
  | NegLook r' =>
      match rmatch r' pos s with
      | [] => [(pos, s)]
      | _ :: _ => []
      end
  end.

(** [Matcher.find]: a match starting at some offset of the subject. *)
Fixpoint find_from (r : regex) (pos : nat) (s : string) : bool :=
  match rmatch r pos s with
  | _ :: _ => true
  | [] =>
      match s with
      | EmptyString => false
      | String _ s' => find_from r (S pos) s'
      end
  end.

Definition re_find (r : regex) (s : string) : bool := find_from r 0 s.

Fixpoint grep_from (r : regex) (i : nat) (col : list string) : list nat :=
  match col with
  | [] => []
  | s :: rest =>
      if re_find r s then i :: grep_from r (S i) rest
      else grep_from r (S i) rest
  end.

(** Modelled from the spec: [H2OFrame.grep] (h2o-py/h2o/frame.py) is not part
    of the sources at hand.  The specification has the selection "scan the
    sorted model_id column top-to-bottom" for "the first identifier whose
    string matches the family's prefix rule".  [_best] takes the number of
    rows of the result, turns its first entry into an [int] and uses it as a
    row index: the result holds the positions, counted from 0 and in
    increasing order, of the elements of the column that match. *)
Definition grep (pattern : regex) (col : list string) : list nat :=
  grep_from pattern 0 col.

(** ** The AutoML object *)

Record ModelBase : Type := mkModel {
  model_key : string;
  model_category : string      (* _model_json["output"]["model_category"] *)
}.

(** The properties the mixin leaves to the classes that use it, for an
    object whose leaderboard is a frame; its leader may be missing. *)
Record H2OAutoML : Type := mkAutoML {
  project_name : string;
  leader : option ModelBase;
  leaderboard : H2OFrame;
  training_info : list (string * string)
}.

Definition read_leader (self : H2OAutoML) : M (option ModelBase) :=
  run! emit ReadLeader in ret (leader self).

Definition read_leaderboard (self : H2OAutoML) : M H2OFrame :=
  run! emit ReadLeaderboard in ret (leaderboard self).

(** Modelled from the spec: [h2o.get_model] (h2o-py/h2o/h2o.py) is not part of
    the sources at hand.  The specification gives
    [get_model(model_id: string) -> ModelHandle]; the handle is identified
    with the identifier it is resolved from. *)
Definition get_model (model_id : string) : M string :=
  run! emit (GetModel model_id) in ret model_id.

(** ** get_best_model *)

Definition patterns : list (string * regex) :=
  [ ("base_model",       Seq Bol (NegLook (Lit "StackedEnsemble_")));
                                          (* ^(?!StackedEnsemble_) *)
    ("deep_learning",    Seq Bol (Lit "DeepLearning_"));
                                          (* ^DeepLearning_ *)
    ("drf",              Seq Bol (Seq (Alt (Lit "DRF") (Lit "XRT")) (Lit "_")));
                                          (* ^(DRF|XRT)_ *)
    ("gbm",              Seq Bol (Lit "GBM_"));
                                          (* ^GBM_ *)
    ("glm",              Seq Bol (Lit "GLM_"));
                                          (* ^GLM_ *)
    ("stacked_ensemble", Seq Bol (Lit "StackedEnsemble_"));
                                          (* ^StackedEnsemble_ *)
    ("xgboost",          Seq Bol (Lit "XGBoost_"));
                                          (* ^XGBoost_ *)
    ("xrt",              Seq Bol (Lit "XRT_"))
                                          (* ^XRT_ *) ].

Definition higher_is_better : list string := ["auc"; "aucpr"].

Fixpoint dict_get {V : Type} (k : string) (d : list (string * V)) : option V :=
  match d with
  | [] => None
  | (k', v) :: rest => if String.eqb k k' then Some v else dict_get k rest
  end.

Definition dict_keys {V : Type} (d : list (string * V)) : list string :=
  map fst d.

(** Line 176, [{col.lower(): col for col in cols}]: a later column replaces an earlier
    one with the same lowercase form. *)
Definition criteria_of (cols : list string) : gmap string string :=
  foldl (fun (m : gmap string string) col => <[lower col := col]> m) ∅ cols.

Definition default_criterion (model_category : string) : string :=
  if String.eqb "Regression" model_category then "mean_residual_deviance"
  else if String.eqb "Binomial" model_category then "auc"
  else "mean_per_class_error".

Definition criterion_error (criterion : string) : exn :=
  H2OValueError ("Criterion " +:+ dquote +:+ criterion +:+ dquote
                 +:+ " is not present in the leaderboard!").

Definition algorithm_error (algorithm : string) : exn :=
  H2OValueError ("Incorrect model_type specified " +:+ dquote +:+ algorithm
                 +:+ dquote +:+ ". Has to be one of " +:+ dquote
                 +:+ String.concat (dquote +:+ ", " +:+ dquote)
                      (stable_sort String.leb (dict_keys patterns))
                 +:+ dquote).

(** Lines 147-152.  The position comes from the sorted frame and is read in
    [self.leaderboard]; it is a row of it, the sort keeping the number of
    rows.  A sort that fails ends the call. *)
Definition _best (self : H2OAutoML) (leaderboard : H2OFrame) (pattern : regex)
    (criterion : string) (ascending : bool) : M (option string) :=
  let! sorted_lb := sort leaderboard criterion ascending in
  let matches := grep pattern (model_id_column sorted_lb) in
  match matches with
  | [] => ret None
  | i :: _ =>
      let! lb := read_leaderboard self in
      match model_id_column lb !! i with
      | Some id => let! m := get_model id in ret (Some m)
      | None => raise (IndexError "row index out of range")
      end
  end.

(** Lines 167-174: the criterion the call works with, the default being read
    off the leader's category. *)
Definition resolve_criterion (self : H2OAutoML) (criterion : option string)
    : M string :=
  match criterion with
  | None =>
      let! l := read_leader self in
      match l with
      | None =>
          raise (AttributeError
                   "'NoneType' object has no attribute '_model_json'")
      | Some m => ret (default_criterion (model_category m))
      end
  | Some c => ret c
  end.

(** Lines 176-196.  The membership test of line 178 lowers the criterion,
    the lookup of line 182 takes it as it is. *)
Definition get_best_model (self : H2OAutoML) (algorithm : string)
    (criterion : option string) : M (option string) :=
  let! criterion := resolve_criterion self criterion in
  let! lb := read_leaderboard self in
  let criteria := criteria_of (columns lb) in
  match criteria !! lower criterion with
  | None => raise (criterion_error criterion)
  | Some _ =>
      match criteria !! criterion with
      | None => raise (KeyError criterion)
      | Some criterion =>
          match dict_get (lower algorithm) patterns with
          | None => raise (algorithm_error algorithm)
          | Some pattern =>
              let! lb' := read_leaderboard self in
              _best self lb' pattern criterion
                    (negb (str_in (lower criterion) higher_is_better))
          end
      end
  end.

(** ** Notions the statements are written with *)


(** The prefix rule of each family, as a test on the identifier. *)
Definition family_rule (family id : string) : bool :=
  if String.eqb family "base_model" then negb (String.prefix "StackedEnsemble_" id)
  else if String.eqb family "deep_learning" then String.prefix "DeepLearning_" id
  else if String.eqb family "drf" then String.prefix "DRF_" id || String.prefix "XRT_" id
  else if String.eqb family "gbm" then String.prefix "GBM_" id
  else if String.eqb family "glm" then String.prefix "GLM_" id
  else if String.eqb family "stacked_ensemble" then String.prefix "StackedEnsemble_" id
  else if String.eqb family "xgboost" then String.prefix "XGBoost_" id
  else if String.eqb family "xrt" then String.prefix "XRT_" id
  else false.

(** ** Leaderboards of the scenarios *)

(** Three GBM models, in the order of their [logloss]. *)
Definition lb_gbm : H2OFrame :=
  mkFrame ["logloss"; "auc"; "mse"]
    [ mkRow "GBM_1" [3#10; 7#10; 7#10];
      mkRow "GBM_2" [4#10; 9#10; 9#10];
      mkRow "GBM_3" [5#10; 5#10; 5#10] ].

Definition aml_gbm : H2OAutoML :=
  mkAutoML "automl_gbm" (Some (mkModel "GBM_1" "Binomial")) lb_gbm [].

(** A random forest and an extremely randomized one, in the order of their
    [auc]. *)
Definition lb_forest : H2OFrame :=
  mkFrame ["auc"; "logloss"]
    [ mkRow "DRF_1" [9#10; 4#10];
      mkRow "XRT_1" [8#10; 3#10] ].

Definition aml_forest : H2OAutoML :=
  mkAutoML "automl_forest" (Some (mkModel "DRF_1" "Binomial")) lb_forest [].



(** A regression run: no [auc] column. *)
Definition lb_regression : H2OFrame :=
  mkFrame ["mean_residual_deviance"; "rmse"]
    [ mkRow "GLM_1" [2#10; 4#10];
      mkRow "GBM_1" [3#10; 5#10] ].

Definition aml_regression (category : string) : H2OAutoML :=
  mkAutoML "automl_regression" (Some (mkModel "GLM_1" category)) lb_regression [].

(** ** Tactics *)

(** Membership in a list that is written out. *)
Ltac elem_of_list :=
  repeat first [apply list_elem_of_here | apply list_elem_of_further].

Ltac not_elem_of_list :=
  let H := fresh in
  intros H;
  repeat (apply elem_of_cons in H as [H|H]; [discriminate H|]);
  now apply elem_of_nil in H.

(** ** Facts about the string operations *)

Lemma lower_ascii_idemp (c : ascii) : lower_ascii (lower_ascii c) = lower_ascii c.
Proof. destruct c as [[] [] [] [] [] [] [] []]; reflexivity. Qed.

Lemma lower_idemp (s : string) : lower (lower s) = lower s.
Proof.
  induction s as [|c s IH]; simpl; [reflexivity|].
  now rewrite lower_ascii_idemp, IH.
Qed.

(** ** The dictionary of criteria *)

Lemma criteria_fold_lookup_None (cols : list string) (m : gmap string string) (k : string) :
  foldl (fun (m : gmap string string) col => <[lower col := col]> m) m cols !! k = None
  <-> m !! k = None /\ k ∉ map lower cols.
Proof.
  revert m. induction cols as [|col cols IH]; intros m; simpl.
  - split; [intros H; split; [exact H|apply not_elem_of_nil]|tauto].
  - rewrite IH, not_elem_of_cons. destruct (decide (lower col = k)) as [->|Hne].
    + rewrite lookup_insert_eq. split; [intros [H _]; discriminate H|intros [_ [H _]]; now destruct H].
    + rewrite lookup_insert_ne by exact Hne. split.
      * intros [H1 H2]. repeat split; auto.
      * intros [H1 [_ H2]]. split; auto.
Qed.

Lemma criteria_of_None (cols : list string) (k : string) :
  criteria_of cols !! k = None <-> k ∉ map lower cols.
Proof.
  unfold criteria_of. rewrite criteria_fold_lookup_None, lookup_empty. tauto.
Qed.

Lemma criteria_fold_lookup_Some (cols : list string) (m : gmap string string) (k col : string) :
  (forall k' c', m !! k' = Some c' -> lower c' = k') ->
  foldl (fun (m : gmap string string) col => <[lower col := col]> m) m cols !! k = Some col ->
  lower col = k.
Proof.
  revert m. induction cols as [|c cols IH]; intros m Hm; simpl.
  - apply Hm.
  - apply IH. intros k' c'. destruct (decide (lower c = k')) as [<-|Hne].
    + rewrite lookup_insert_eq. intros H. inversion H. reflexivity.
    + rewrite lookup_insert_ne by exact Hne. apply Hm.
Qed.

(** A key of the dictionary is the lowercase form of its column. *)
Lemma criteria_of_Some (cols : list string) (k col : string) :
  criteria_of cols !! k = Some col -> lower col = k.
Proof.
  apply criteria_fold_lookup_Some. intros k' c'. rewrite lookup_empty. discriminate.
Qed.

Lemma criteria_of_key_lower (cols : list string) (k col : string) :
  criteria_of cols !! k = Some col -> lower k = k.
Proof.
  intros H. apply criteria_of_Some in H. subst k. apply lower_idemp.
Qed.

(** ** The sort of the frames *)

Section StableSortFacts.
Context {A : Type} (leb : A -> A -> bool).

Lemma insert_sorted_perm (x : A) (l : list A) :
  insert_sorted leb x l ≡ₚ x :: l.
Proof.
  induction l as [|y l IH]; simpl; [reflexivity|].
  destruct (leb x y); [reflexivity|].
  rewrite IH. apply Permutation_swap.
Qed.

Lemma stable_sort_perm (l : list A) : stable_sort leb l ≡ₚ l.
Proof.
  induction l as [|x l IH]; simpl; [reflexivity|].
  now rewrite insert_sorted_perm, IH.
Qed.

Lemma stable_sort_length (l : list A) :
  length (stable_sort leb l) = length l.
Proof. apply Permutation_length, stable_sort_perm. Qed.

Hypothesis leb_trans :
  forall a b c, leb a b = true -> leb b c = true -> leb a c = true.



Hypothesis leb_total : forall a b, leb a b = true \/ leb b a = true.


End StableSortFacts.

(** The order on the rows is a total preorder. *)




(** The sort by [model_id] fails, the sort by another column gives the
    sorted frame. *)
Lemma sort_model_id (fr : H2OFrame) (ascending : bool) :
  sort fr "model_id" ascending = raise H2OServerError.
Proof. reflexivity. Qed.

Lemma sort_metric (fr : H2OFrame) (by_ : string) (ascending : bool) :
  by_ <> "model_id" -> sort fr by_ ascending = ret (sorted fr by_ ascending).
Proof.
  intros H. unfold sort. now destruct (String.eqb_spec by_ "model_id").
Qed.

(** The rows of the sorted frame are the rows of the frame, in order. *)
Lemma sorted_perm (fr : H2OFrame) (by_ : string) (ascending : bool) :
  frame_rows (sorted fr by_ ascending) ≡ₚ frame_rows fr.
Proof. apply stable_sort_perm. Qed.

Lemma sorted_length (fr : H2OFrame) (by_ : string) (ascending : bool) :
  length (model_id_column (sorted fr by_ ascending))
  = length (model_id_column fr).
Proof.
  unfold model_id_column. rewrite !length_map.
  apply Permutation_length, sorted_perm.
Qed.



(** ** The family patterns *)

Lemma prefix_append (a b s : string) :
  String.prefix (a +:+ b) s
  = String.prefix a s && String.prefix b (drop_string (String.length a) s).
Proof.
  revert s. induction a as [|x a IH]; intros s; simpl.
  - now destruct s.
  - destruct s as [|y s]; simpl.
    + reflexivity.
    + destruct (ascii_dec x y); [apply IH|reflexivity].
Qed.

(** A pattern anchored by [^] matches at the start of the subject or not at
    all. *)
Lemma find_from_anchored (r : regex) (pos : nat) (s : string) :
  find_from (Seq Bol r) (S pos) s = false.
Proof.
  revert pos. induction s as [|c s IH]; intros pos; simpl; [reflexivity|].
  apply IH.
Qed.

Lemma re_find_anchored (r : regex) (s : string) :
  re_find (Seq Bol r) s = match rmatch r 0 s with [] => false | _ :: _ => true end.
Proof.
  unfold re_find. destruct s as [|c s]; simpl; rewrite app_nil_r.
  - now destruct (rmatch r 0 EmptyString).
  - destruct (rmatch r 0 (String c s)); [apply find_from_anchored|reflexivity].
Qed.

Lemma re_find_prefix (p s : string) :
  re_find (Seq Bol (Lit p)) s = String.prefix p s.
Proof. rewrite re_find_anchored. simpl. now destruct (String.prefix p s). Qed.

Lemma re_find_not_prefix (p s : string) :
  re_find (Seq Bol (NegLook (Lit p))) s = negb (String.prefix p s).
Proof. rewrite re_find_anchored. simpl. now destruct (String.prefix p s). Qed.

Lemma re_find_drf (s : string) :
  re_find (Seq Bol (Seq (Alt (Lit "DRF") (Lit "XRT")) (Lit "_"))) s
  = String.prefix "DRF_" s || String.prefix "XRT_" s.
Proof.
  rewrite re_find_anchored.
  change "DRF_" with ("DRF" +:+ "_"). change "XRT_" with ("XRT" +:+ "_").
  rewrite !prefix_append.
  cbn [rmatch flat_map String.length fst snd Nat.add].
  destruct (String.prefix "DRF" s), (String.prefix "XRT" s);
    cbn [app flat_map fst snd andb orb];
    destruct (String.prefix "_" (drop_string 3 s)); reflexivity.
Qed.

Lemma patterns_rule (family : string) (pattern : regex) (id : string) :
  dict_get family patterns = Some pattern ->
  re_find pattern id = family_rule family id.
Proof.
  unfold patterns, family_rule. cbn [dict_get].
  repeat lazymatch goal with
    | |- (if String.eqb family ?k then _ else _) = _ -> _ =>
        destruct (String.eqb family k); cbv iota;
        [intros H; injection H as <-;
         first [apply re_find_prefix | apply re_find_not_prefix | apply re_find_drf]|]
    end.
  discriminate.
Qed.

(** ** The positions returned by grep *)

Lemma grep_from_nil (r : regex) (i : nat) (col : list string) :
  grep_from r i col = [] <-> Forall (fun s => re_find r s = false) col.
Proof.
  revert i. induction col as [|s col IH]; intros i; simpl.
  - split; [constructor|reflexivity].
  - destruct (re_find r s) eqn:Hs.
    + split; [discriminate|]. intros H. apply Forall_cons in H as [H _]. congruence.
    + rewrite IH. split; [now constructor|]. intros H. now apply Forall_cons in H as [_ H].
Qed.

Lemma grep_nil (r : regex) (col : list string) :
  grep r col = [] <-> Forall (fun s => re_find r s = false) col.
Proof. apply grep_from_nil. Qed.

(** The first position is that of the first element that matches. *)
Lemma grep_from_head (r : regex) (i j : nat) (col : list string) (rest : list nat) :
  grep_from r i col = j :: rest ->
  exists k s, j = (i + k)%nat /\ col !! k = Some s /\ re_find r s = true
              /\ Forall (fun s' => re_find r s' = false) (take k col).
Proof.
  revert i. induction col as [|s col IH]; intros i; simpl; [discriminate|].
  destruct (re_find r s) eqn:Hs.
  - intros [= <- _]. exists 0%nat, s. rewrite Nat.add_0_r.
    repeat split; auto.
  - intros H. destruct (IH _ H) as (k & s' & -> & Hk & Hm & Hbefore).
    exists (S k), s'. split; [lia|]. repeat split; auto. simpl. now constructor.
Qed.

Lemma grep_head (r : regex) (j : nat) (col : list string) (rest : list nat) :
  grep r col = j :: rest ->
  exists s, col !! j = Some s /\ re_find r s = true
            /\ Forall (fun s' => re_find r s' = false) (take j col).
Proof.
  intros H. destruct (grep_from_head r 0 j col rest H) as (k & s & -> & H1 & H2 & H3).
  exists s. auto.
Qed.

(** ** Running the monad *)

Lemma outcome_bind {A B : Type} (m : M A) (f : A -> M B) :
  outcome (bind m f)
  = match outcome m with inl e => inl e | inr a => outcome (f a) end.
Proof. destruct m as [t [e|a]]; reflexivity. Qed.

Lemma trace_bind {A B : Type} (m : M A) (f : A -> M B) :
  trace (bind m f)
  = match outcome m with inl _ => trace m | inr a => trace m ++ trace (f a) end.
Proof. destruct m as [t [e|a]]; reflexivity. Qed.

Lemma bind_ext {A B : Type} (m : M A) (f g : A -> M B) :
  (forall a, f a = g a) -> bind m f = bind m g.
Proof. intros H. destruct m as [t [e|a]]; simpl; [reflexivity|now rewrite H]. Qed.

Lemma dict_get_None {V : Type} (k : string) (d : list (string * V)) :
  dict_get k d = None <-> k ∉ dict_keys d.
Proof.
  induction d as [|[k' v] d IH]; simpl.
  - split; [intros _; apply not_elem_of_nil|reflexivity].
  - rewrite not_elem_of_cons. destruct (String.eqb_spec k k') as [->|Hne].
    + split; [discriminate|]. intros [H _]. now destruct H.
    + rewrite IH. tauto.
Qed.

Lemma outcome_read_leaderboard (self : H2OAutoML) :
  outcome (read_leaderboard self) = inr (leaderboard self).
Proof. reflexivity. Qed.

Lemma trace_read_leaderboard (self : H2OAutoML) :
  trace (read_leaderboard self) = [ReadLeaderboard].
Proof. reflexivity. Qed.



(** ** What a call computes *)

(** With a criterion that is a key of the dictionary and a known family, the
    call is the run of [_best] on the column the key stands for. *)
Lemma get_best_model_resolved (self : H2OAutoML) (algorithm : string)
    (criterion : option string) (c col : string) (pattern : regex) :
  outcome (resolve_criterion self criterion) = inr c ->
  criteria_of (columns (leaderboard self)) !! c = Some col ->
  dict_get (lower algorithm) patterns = Some pattern ->
  outcome (get_best_model self algorithm criterion)
  = outcome (_best self (leaderboard self) pattern col
               (negb (str_in (lower col) higher_is_better))).
Proof.
  intros Hr Hc Ha. unfold get_best_model.
  rewrite outcome_bind, Hr.
  rewrite outcome_bind, outcome_read_leaderboard.
  rewrite (criteria_of_key_lower _ _ _ Hc), Hc, Ha.
  now rewrite outcome_bind, outcome_read_leaderboard.
Qed.

Lemma get_best_model_explicit (self : H2OAutoML) (algorithm c col : string)
    (pattern : regex) :
  criteria_of (columns (leaderboard self)) !! c = Some col ->
  dict_get (lower algorithm) patterns = Some pattern ->
  outcome (get_best_model self algorithm (Some c))
  = outcome (_best self (leaderboard self) pattern col
               (negb (str_in (lower col) higher_is_better))).
Proof. now apply get_best_model_resolved. Qed.

Lemma grep_bound (r : regex) (col : list string) (j : nat) (rest : list nat) :
  grep r col = j :: rest -> (j < length col)%nat.
Proof.
  intros H. destruct (grep_head _ _ _ _ H) as (s & Hs & _).
  now apply lookup_lt_Some in Hs.
Qed.

(** The outcome of [_best]: the exception of the sort, the sentinel, or the
    identifier at the position of the first match; that position is a row of
    the leaderboard. *)
Lemma _best_outcome (self : H2OAutoML) (pattern : regex) (col : string)
    (ascending : bool) :
  outcome (_best self (leaderboard self) pattern col ascending)
  = if String.eqb col "model_id" then inl H2OServerError
    else inr (match grep pattern
                      (model_id_column (sorted (leaderboard self) col ascending)) with
              | [] => None
              | i :: _ => model_id_column (leaderboard self) !! i
              end).
Proof.
  unfold _best, sort. destruct (String.eqb col "model_id"); [reflexivity|].
  rewrite outcome_bind. cbn [ret outcome snd].
  destruct (grep pattern _) as [|i rest] eqn:Hg; [reflexivity|].
  apply grep_bound in Hg. rewrite sorted_length in Hg.
  rewrite outcome_bind, outcome_read_leaderboard.
  destruct (model_id_column (leaderboard self) !! i) as [id|] eqn:Hi; [reflexivity|].
  apply lookup_ge_None in Hi. lia.
Qed.

Lemma grep_first (r : regex) (ids : list string) :
  match grep r ids with [] => None | i :: _ => ids !! i end
  = head (List.filter (re_find r) ids).
Proof.
  destruct (grep r ids) as [|i rest] eqn:Hg.
  - apply grep_nil in Hg.
    induction Hg as [|s ids Hs _ IH]; [reflexivity|]. cbn. now rewrite Hs.
  - destruct (grep_head _ _ _ _ Hg) as (s & Hi & Hm & Hbefore).
    clear Hg. revert i Hi Hbefore.
    induction ids as [|s' ids IH]; intros i Hi Hb; [discriminate|].
    destruct i as [|i]; cbn in *.
    + injection Hi as ->. now rewrite Hm.
    + apply Forall_cons in Hb as [Hs' Hb]. rewrite Hs'. now apply (IH i).
Qed.

Lemma grep_all (r : regex) (col : list string) :
  Forall (fun s => re_find r s = true) col ->
  grep r col = match col with [] => [] | _ :: rest => 0%nat :: grep_from r 1 rest end.
Proof.
  intros H. destruct H as [|s col Hs _]; [reflexivity|].
  unfold grep. cbn [grep_from]. now rewrite Hs.
Qed.

(** The identifiers of the sorted frame are those of the frame. *)
Lemma sorted_Forall (fr : H2OFrame) (by_ : string) (ascending : bool)
    (P : string -> Prop) :
  Forall P (model_id_column fr) ->
  Forall P (model_id_column (sorted fr by_ ascending)).
Proof.
  unfold model_id_column. rewrite !Forall_map. intros H.
  eapply Permutation_Forall; [symmetry; apply sorted_perm|exact H].
Qed.

(** ** The statements of the specification *)

(** C1.  The specification has the call sort the leaderboard by the criterion
    and return the first identifier of the family in the sorted order: the
    model with [auc] 0.9 among [0.7; 0.9; 0.5], the one with [mse] 0.5 among
    [0.7; 0.9; 0.5].  The call finds the position of that identifier in the
    sorted frame and reads the identifier at that position of the frame as it
    was before the sort: on [lb_gbm] the sort by [auc] puts [GBM_2] (0.9)
    first and the sort by [mse] puts [GBM_3] (0.5) first, and both calls
    return [GBM_1] (0.7), the first row of the leaderboard. *)
Theorem best_model_read_from_unsorted_leaderboard :
  sort lb_gbm "auc" false
  = ret (mkFrame ["logloss"; "auc"; "mse"]
           [ mkRow "GBM_2" [4#10; 9#10; 9#10];
             mkRow "GBM_1" [3#10; 7#10; 7#10];
             mkRow "GBM_3" [5#10; 5#10; 5#10] ])
  /\ outcome (get_best_model aml_gbm "gbm" (Some "auc")) = inr (Some "GBM_1")
  /\ sort lb_gbm "mse" true
     = ret (mkFrame ["logloss"; "auc"; "mse"]
              [ mkRow "GBM_3" [5#10; 5#10; 5#10];
                mkRow "GBM_1" [3#10; 7#10; 7#10];
                mkRow "GBM_2" [4#10; 9#10; 9#10] ])
  /\ outcome (get_best_model aml_gbm "gbm" (Some "mse")) = inr (Some "GBM_1").
Proof. repeat split; vm_compute; reflexivity. Qed.

(** What the call returns in general, with a criterion that is a key of the
    dictionary and a known family: the exception of the backend where the key
    stands for the column [model_id], which is not sorted by; otherwise the
    identifier found in the leaderboard at the position the first match has
    in the sorted frame, or the sentinel. *)
Lemma get_best_model_position (self : H2OAutoML) (algorithm c col : string)
    (pattern : regex) :
  criteria_of (columns (leaderboard self)) !! c = Some col ->
  dict_get (lower algorithm) patterns = Some pattern ->
  outcome (get_best_model self algorithm (Some c))
  = if String.eqb col "model_id" then inl H2OServerError
    else inr (match grep pattern
                      (model_id_column
                         (sorted (leaderboard self) col
                            (negb (str_in (lower col) higher_is_better)))) with
              | [] => None
              | i :: _ => model_id_column (leaderboard self) !! i
              end).
Proof.
  intros Hc Ha. rewrite (get_best_model_explicit _ _ _ _ _ Hc Ha).
  apply _best_outcome.
Qed.

(** Where the sort by the criterion gives the leaderboard back as it is, the
    call returns the first identifier of the family. *)
Lemma get_best_model_on_sorted (self : H2OAutoML) (algorithm c col : string)
    (pattern : regex) :
  criteria_of (columns (leaderboard self)) !! c = Some col ->
  dict_get (lower algorithm) patterns = Some pattern ->
  sort (leaderboard self) col (negb (str_in (lower col) higher_is_better))
  = ret (leaderboard self) ->
  outcome (get_best_model self algorithm (Some c))
  = inr (head (List.filter (family_rule (lower algorithm))
                           (model_id_column (leaderboard self)))).
Proof.
  intros Hc Ha Hs. rewrite (get_best_model_explicit _ _ _ _ _ Hc Ha).
  rewrite _best_outcome. unfold sort in Hs.
  destruct (String.eqb col "model_id"); [discriminate Hs|].
  assert (Hs' : sorted (leaderboard self) col
                  (negb (str_in (lower col) higher_is_better))
                = leaderboard self) by (injection Hs as Hs; exact Hs).
  rewrite Hs', grep_first. do 2 f_equal.
  apply filter_ext. intros id. now apply patterns_rule.
Qed.

(** C2.  The specification has [criterion="AUC"] and [criterion="auc"]
    equivalent, neither raising.  The membership test lowers the criterion,
    the lookup that follows does not: on [aml_gbm], whose leaderboard has the
    column [auc], the call with ["auc"] returns a model and the call with
    ["AUC"] raises [KeyError]. *)
Theorem uppercase_criterion_KeyError :
  outcome (get_best_model aml_gbm "gbm" (Some "auc")) = inr (Some "GBM_1")
  /\ outcome (get_best_model aml_gbm "gbm" (Some "AUC")) = inl (KeyError "AUC").
Proof. split; vm_compute; reflexivity. Qed.

(** The same for every criterion that names a column of the leaderboard in
    another case than lowercase. *)
Lemma mixed_case_criterion_KeyError (self : H2OAutoML) (algorithm c : string) :
  lower c ∈ map lower (columns (leaderboard self)) ->
  lower c <> c ->
  outcome (get_best_model self algorithm (Some c)) = inl (KeyError c).
Proof.
  intros Hin Hne. unfold get_best_model.
  rewrite outcome_bind. cbn [resolve_criterion ret outcome snd].
  rewrite outcome_bind, outcome_read_leaderboard.
  destruct (criteria_of (columns (leaderboard self)) !! lower c) as [col|] eqn:Hl.
  - destruct (criteria_of (columns (leaderboard self)) !! c) as [col'|] eqn:Hc;
      [|reflexivity].
    apply criteria_of_key_lower in Hc. contradiction.
  - apply criteria_of_None in Hl. contradiction.
Qed.

(** C3.  A criterion, given or resolved from the leader's category, whose
    lowercase form is not the lowercase form of a column of the leaderboard
    is refused with an [H2OValueError] whose message quotes it, whatever the
    family asked for. *)
Theorem unknown_criterion_rejected (self : H2OAutoML) (algorithm : string)
    (criterion : option string) (c : string) :
  outcome (resolve_criterion self criterion) = inr c ->
  lower c ∉ map lower (columns (leaderboard self)) ->
  outcome (get_best_model self algorithm criterion)
  = inl (H2OValueError ("Criterion " +:+ dquote +:+ c +:+ dquote
                        +:+ " is not present in the leaderboard!")).
Proof.
  intros Hr Hnot. unfold get_best_model.
  rewrite outcome_bind, Hr, outcome_bind, outcome_read_leaderboard.
  apply criteria_of_None in Hnot. now rewrite Hnot.
Qed.

(** The default of a run of category [Multinomial] on a leaderboard without
    the column [mean_per_class_error]. *)
Lemma unknown_criterion_rejected_witness :
  outcome (resolve_criterion (aml_regression "Multinomial") None)
  = inr "mean_per_class_error"
  /\ ("mean_per_class_error"
      ∉ map lower (columns (leaderboard (aml_regression "Multinomial"))))
  /\ outcome (get_best_model (aml_regression "Multinomial") "glm" None)
     = inl (H2OValueError ("Criterion " +:+ dquote +:+ "mean_per_class_error"
                           +:+ dquote +:+ " is not present in the leaderboard!")).
Proof.
  assert (H1 : outcome (resolve_criterion (aml_regression "Multinomial") None)
               = inr "mean_per_class_error") by reflexivity.
  assert (H2 : lower "mean_per_class_error"
               ∉ map lower (columns (leaderboard (aml_regression "Multinomial"))))
    by (vm_compute; not_elem_of_list).
  split; [exact H1|split; [exact H2|]].
  exact (unknown_criterion_rejected (aml_regression "Multinomial") "glm" None
           "mean_per_class_error" H1 H2).
Defined.

(** C4.  The specification has every family outside the eight tags refused
    with an [H2OValueError] that lists the tags, once the criterion has
    passed its validation.  ["AUC"] passes the validation of [aml_gbm] (its
    lowercase form is a column) and the call with the family ["foo"] raises
    [KeyError] at the lookup of the column, before the family is looked at. *)
Theorem unknown_family_after_uppercase_criterion :
  (lower "AUC" ∈ map lower (columns (leaderboard aml_gbm)))
  /\ (lower "foo" ∉ dict_keys patterns)
  /\ outcome (get_best_model aml_gbm "foo" (Some "AUC")) = inl (KeyError "AUC").
Proof.
  split; [|split].
  - vm_compute. elem_of_list.
  - apply dict_get_None. reflexivity.
  - vm_compute. reflexivity.
Qed.

(** The tags of the message are the eight families in alphabetical order. *)
Lemma sorted_families :
  stable_sort String.leb (dict_keys patterns)
  = ["base_model"; "deep_learning"; "drf"; "gbm"; "glm"; "stacked_ensemble";
     "xgboost"; "xrt"].
Proof. reflexivity. Qed.

(** With a criterion that is a key of the dictionary, a family outside the
    eight tags is refused, and the message lists the tags. *)
Lemma unknown_family_rejected (self : H2OAutoML) (algorithm c col : string) :
  criteria_of (columns (leaderboard self)) !! c = Some col ->
  lower algorithm ∉ dict_keys patterns ->
  outcome (get_best_model self algorithm (Some c))
  = inl (H2OValueError
           ("Incorrect model_type specified " +:+ dquote +:+ algorithm
            +:+ dquote +:+ ". Has to be one of " +:+ dquote
            +:+ String.concat (dquote +:+ ", " +:+ dquote)
                  ["base_model"; "deep_learning"; "drf"; "gbm"; "glm";
                   "stacked_ensemble"; "xgboost"; "xrt"]
            +:+ dquote)).
Proof.
  intros Hc Ha. apply dict_get_None in Ha. unfold get_best_model.
  rewrite outcome_bind. cbn [resolve_criterion ret outcome snd].
  rewrite outcome_bind, outcome_read_leaderboard.
  rewrite (criteria_of_key_lower _ _ _ Hc), Hc, Ha. reflexivity.
Qed.

(** C5.  The specification has the call return the sentinel, and never
    raise, when no identifier is of the family asked for, for every valid
    criterion.  [aml_gbm] has no GLM model and the column [auc]: the call for
    ["glm"] with ["auc"] returns [None], the call with ["AUC"] raises
    [KeyError]. *)
Theorem no_match_after_uppercase_criterion :
  Forall (fun id => family_rule "glm" id = false) (model_id_column (leaderboard aml_gbm))
  /\ outcome (get_best_model aml_gbm "glm" (Some "auc")) = inr None
  /\ (lower "AUC" ∈ map lower (columns (leaderboard aml_gbm)))
  /\ outcome (get_best_model aml_gbm "glm" (Some "AUC")) = inl (KeyError "AUC").
Proof.
  split; [|split; [|split]].
  - repeat constructor.
  - vm_compute. reflexivity.
  - vm_compute. elem_of_list.
  - vm_compute. reflexivity.
Qed.

(** With a criterion that is a key of the dictionary for a metric column and
    a known family, no identifier of the family gives the sentinel; the
    leaderboard may be empty. *)
Lemma no_match_returns_None (self : H2OAutoML) (algorithm c col : string) :
  criteria_of (columns (leaderboard self)) !! c = Some col ->
  col <> "model_id" ->
  lower algorithm ∈ dict_keys patterns ->
  Forall (fun id => family_rule (lower algorithm) id = false)
         (model_id_column (leaderboard self)) ->
  outcome (get_best_model self algorithm (Some c)) = inr None.
Proof.
  intros Hc Hm Ha Hno.
  destruct (dict_get (lower algorithm) patterns) as [pattern|] eqn:Hp;
    [|apply dict_get_None in Hp; contradiction].
  rewrite (get_best_model_explicit _ _ _ _ _ Hc Hp), _best_outcome.
  destruct (String.eqb_spec col "model_id") as [E|_]; [contradiction|].
  assert (Hg : grep pattern
                 (model_id_column
                    (sorted (leaderboard self) col
                       (negb (str_in (lower col) higher_is_better)))) = []).
  { apply grep_nil, sorted_Forall.
    eapply Forall_impl; [exact Hno|]. intros id Hid.
    now rewrite (patterns_rule _ _ id Hp). }
  now rewrite Hg.
Qed.

(** C6.  Without a criterion the call reads the category of the leader:
    [Regression] gives [mean_residual_deviance], [Binomial] gives [auc], any
    other category gives [mean_per_class_error]; from there on the call is the
    call with that criterion given, the read of the leader apart. *)
Theorem default_criterion_resolution (self : H2OAutoML) (algorithm : string)
    (m : ModelBase) :
  leader self = Some m ->
  (model_category m = "Regression" ->
   default_criterion (model_category m) = "mean_residual_deviance")
  /\ (model_category m = "Binomial" ->
      default_criterion (model_category m) = "auc")
  /\ (model_category m <> "Regression" -> model_category m <> "Binomial" ->
      default_criterion (model_category m) = "mean_per_class_error")
  /\ outcome (get_best_model self algorithm None)
     = outcome (get_best_model self algorithm
                  (Some (default_criterion (model_category m))))
  /\ trace (get_best_model self algorithm None)
     = ReadLeader :: trace (get_best_model self algorithm
                              (Some (default_criterion (model_category m)))).
Proof.
  intros Hl. repeat split.
  - intros ->. reflexivity.
  - intros ->. reflexivity.
  - intros Hr Hb. unfold default_criterion.
    destruct (String.eqb_spec "Regression" (model_category m)) as [E|_];
      [now destruct Hr|].
    destruct (String.eqb_spec "Binomial" (model_category m)) as [E|_];
      [now destruct Hb|reflexivity].
  - unfold get_best_model. rewrite !outcome_bind.
    unfold resolve_criterion, read_leader. rewrite Hl. reflexivity.
  - unfold get_best_model. rewrite !trace_bind.
    unfold resolve_criterion, read_leader. rewrite Hl. reflexivity.
Qed.

Lemma default_criterion_resolution_witness :
  leader aml_gbm = Some (mkModel "GBM_1" "Binomial")
  /\ outcome (get_best_model aml_gbm "gbm" None)
     = outcome (get_best_model aml_gbm "gbm" (Some "auc"))
  /\ trace (get_best_model aml_gbm "gbm" None)
     = ReadLeader :: trace (get_best_model aml_gbm "gbm" (Some "auc")).
Proof.
  split; [reflexivity|].
  apply (default_criterion_resolution aml_gbm "gbm" (mkModel "GBM_1" "Binomial")).
  reflexivity.
Defined.

(** C7.  The pattern of [drf] takes the identifiers that start with [DRF_] or
    [XRT_], the pattern of [xrt] those that start with [XRT_]; with them the
    specification has the call for ["drf"] return [XRT_1] where [XRT_1] ranks
    best, and the call for ["xrt"] never return [DRF_1].  On [lb_forest]
    sorted by [logloss] the model [XRT_1] comes first; the position of the
    match is read in the leaderboard as it was, where [DRF_1] comes first,
    and both calls return [DRF_1]. *)
Theorem drf_xrt_overlap_reads_unsorted :
  (forall id, family_rule "drf" id
              = String.prefix "DRF_" id || String.prefix "XRT_" id)
  /\ (forall id, family_rule "xrt" id = String.prefix "XRT_" id)
  /\ sort lb_forest "logloss" true
     = ret (mkFrame ["auc"; "logloss"]
              [ mkRow "XRT_1" [8#10; 3#10];
                mkRow "DRF_1" [9#10; 4#10] ])
  /\ outcome (get_best_model aml_forest "drf" (Some "logloss")) = inr (Some "DRF_1")
  /\ outcome (get_best_model aml_forest "xrt" (Some "logloss")) = inr (Some "DRF_1").
Proof. repeat split; vm_compute; reflexivity. Qed.

(** C8.  Two spellings of a family tag that differ in case only give the same
    call: the same trace and the same result or exception. *)
Theorem family_case_insensitive (self : H2OAutoML) (a1 a2 : string)
    (criterion : option string) :
  lower a1 = lower a2 ->
  lower a1 ∈ dict_keys patterns ->
  get_best_model self a1 criterion = get_best_model self a2 criterion.
Proof.
  intros Heq Hin. unfold get_best_model.
  apply bind_ext. intros c. apply bind_ext. intros lb.
  destruct (criteria_of (columns lb) !! lower c); [|reflexivity].
  destruct (criteria_of (columns lb) !! c) as [col|]; [|reflexivity].
  rewrite <- Heq.
  destruct (dict_get (lower a1) patterns) as [pattern|] eqn:Hp; [reflexivity|].
  apply dict_get_None in Hp. contradiction.
Qed.

Lemma family_case_insensitive_witness :
  lower "GBM" = lower "gbm"
  /\ (lower "GBM" ∈ dict_keys patterns)
  /\ get_best_model aml_gbm "GBM" (Some "mse")
     = get_best_model aml_gbm "gbm" (Some "mse").
Proof.
  assert (H1 : lower "GBM" = lower "gbm") by reflexivity.
  assert (H2 : lower "GBM" ∈ dict_keys patterns) by (vm_compute; elem_of_list).
  split; [exact H1|split; [exact H2|]].
  exact (family_case_insensitive aml_gbm "GBM" "gbm" (Some "mse") H1 H2).
Defined.



Lemma trace_best (self : H2OAutoML) (lb : H2OFrame) (pattern : regex)
    (col : string) (ascending : bool) :
  ReadLeader ∉ trace (_best self lb pattern col ascending).
Proof.
  unfold _best, sort.
  destruct (String.eqb col "model_id"); [apply not_elem_of_nil|].
  rewrite trace_bind. cbn [ret outcome trace fst snd app].
  destruct (grep pattern _) as [|i rest]; [apply not_elem_of_nil|].
  rewrite trace_bind, outcome_read_leaderboard, trace_read_leaderboard.
  destruct (model_id_column (leaderboard self) !! i) as [id|]; cbn;
    not_elem_of_list.
Qed.

(** C10.  With a criterion given the leader is not read, and the call is the
    same on every object with the same leaderboard, whatever its leader. *)
Theorem explicit_criterion_skips_leader (self self' : H2OAutoML)
    (algorithm c : string) :
  leaderboard self' = leaderboard self ->
  (ReadLeader ∉ trace (get_best_model self algorithm (Some c)))
  /\ get_best_model self' algorithm (Some c)
     = get_best_model self algorithm (Some c).
Proof.
  intros Hlb. split.
  - unfold get_best_model.
    rewrite trace_bind. cbn [resolve_criterion ret outcome trace fst snd app].
    rewrite trace_bind, outcome_read_leaderboard, trace_read_leaderboard.
    destruct (criteria_of (columns (leaderboard self)) !! lower c);
      [|cbn; not_elem_of_list].
    destruct (criteria_of (columns (leaderboard self)) !! c) as [col|];
      [|cbn; not_elem_of_list].
    destruct (dict_get (lower algorithm) patterns) as [pattern|];
      [|cbn; not_elem_of_list].
    rewrite trace_bind, outcome_read_leaderboard, trace_read_leaderboard.
    intros H. apply elem_of_cons in H as [H|H]; [discriminate H|].
    apply elem_of_cons in H as [H|H]; [discriminate H|].
    cbn [app] in H. now apply trace_best in H.
  - unfold get_best_model, _best, resolve_criterion, read_leaderboard.
    now rewrite Hlb.
Qed.

Lemma explicit_criterion_skips_leader_witness :
  (ReadLeader ∉ trace (get_best_model aml_gbm "gbm" (Some "auc")))
  /\ get_best_model (mkAutoML "automl_gbm" None lb_gbm []) "gbm" (Some "auc")
     = get_best_model aml_gbm "gbm" (Some "auc").
Proof.
  apply (explicit_criterion_skips_leader aml_gbm
           (mkAutoML "automl_gbm" None lb_gbm []) "gbm" "auc").
  reflexivity.
Defined.

(** ** More about a call: its exceptions, its trace, its result *)

Lemma default_criterion_lower (category : string) :
  lower (default_criterion category) = default_criterion category.
Proof.
  unfold default_criterion.
  destruct (String.eqb "Regression" category); [reflexivity|].
  destruct (String.eqb "Binomial" category); reflexivity.
Qed.

Lemma criteria_of_is_Some (cols : list string) (k : string) :
  is_Some (criteria_of cols !! k) <-> k ∈ map lower cols.
Proof.
  rewrite <- not_eq_None_Some, criteria_of_None.
  destruct (decide (k ∈ map lower cols)); tauto.
Qed.

(** The steps of a call, one case for each way through it. *)
Ltac call_cases self criterion :=
  unfold get_best_model, _best, sort, resolve_criterion, read_leader,
    read_leaderboard, get_model;
  destruct criterion as [?c|];
    [|destruct (leader self) as [?m|] eqn:?Hleader];
  cbn [bind emit ret raise fst snd app trace outcome];
  repeat match goal with
    | |- context [match criteria_of ?cols !! ?k with _ => _ end] =>
        destruct (criteria_of cols !! k) eqn:?Hkey;
        cbn [bind emit ret raise fst snd app trace outcome]
    | |- context [match dict_get ?k patterns with _ => _ end] =>
        destruct (dict_get k patterns) eqn:?Hfamily;
        cbn [bind emit ret raise fst snd app trace outcome]
    | |- context [String.eqb ?col "model_id"] =>
        destruct (String.eqb col "model_id") eqn:?Hstring;
        cbn [bind emit ret raise fst snd app trace outcome]
    | |- context [match grep ?p ?col with _ => _ end] =>
        let Hg := fresh "Hgrep" in
        destruct (grep p col) eqn:Hg;
        [|apply grep_bound in Hg; rewrite sorted_length in Hg];
        cbn [bind emit ret raise fst snd app trace outcome]
    | |- context [match model_id_column ?lb !! ?i with _ => _ end] =>
        let Hi := fresh "Hrow" in
        destruct (model_id_column lb !! i) eqn:Hi;
        [|apply lookup_ge_None in Hi; lia];
        cbn [bind emit ret raise fst snd app trace outcome]
    end.

(** The trace of a call that does not end in [AttributeError], read off its
    outcome: the leader is read when no criterion is given; the leaderboard
    is read once before an exception of the validation, twice when the sort
    fails or no model is found, three times when a model is returned;
    [h2o.get_model] is called for the model that is returned and for no
    other. *)
Theorem trace_by_outcome (self : H2OAutoML) (algorithm : string)
    (criterion : option string) :
  (forall msg, outcome (get_best_model self algorithm criterion)
               <> inl (AttributeError msg)) ->
  trace (get_best_model self algorithm criterion)
  = match criterion with None => [ReadLeader] | Some _ => [] end
    ++ match outcome (get_best_model self algorithm criterion) with
       | inr (Some id) =>
           [ReadLeaderboard; ReadLeaderboard; ReadLeaderboard; GetModel id]
       | inr None => [ReadLeaderboard; ReadLeaderboard]
       | inl H2OServerError => [ReadLeaderboard; ReadLeaderboard]
       | inl _ => [ReadLeaderboard]
       end.
Proof.
  call_cases self criterion; try reflexivity.
  intros H. exfalso. eapply H. reflexivity.
Qed.

Lemma trace_by_outcome_witness :
  trace (get_best_model aml_gbm "gbm" (Some "model_id"))
  = [ReadLeaderboard; ReadLeaderboard]
  /\ trace (get_best_model aml_gbm "gbm" None)
     = [ReadLeader; ReadLeaderboard; ReadLeaderboard; ReadLeaderboard;
        GetModel "GBM_1"].
Proof.
  split.
  - apply (trace_by_outcome aml_gbm "gbm" (Some "model_id")).
    intros msg. vm_compute. discriminate.
  - apply (trace_by_outcome aml_gbm "gbm" None).
    intros msg. vm_compute. discriminate.
Defined.

(** The row that is read is a row of the leaderboard: the access of line 152
    is never out of range. *)
Theorem row_index_in_range (self : H2OAutoML) (algorithm : string)
    (criterion : option string) (msg : string) :
  outcome (get_best_model self algorithm criterion) <> inl (IndexError msg).
Proof. call_cases self criterion; discriminate. Qed.

(** A model that is returned is a model of the leaderboard. *)
Theorem returned_model_in_leaderboard (self : H2OAutoML) (algorithm : string)
    (criterion : option string) (id : string) :
  outcome (get_best_model self algorithm criterion) = inr (Some id) ->
  id ∈ model_id_column (leaderboard self).
Proof.
  call_cases self criterion; try discriminate;
    intros H; injection H as <-; eapply list_elem_of_lookup_2; eassumption.
Qed.

Lemma returned_model_in_leaderboard_witness :
  "DRF_1" ∈ model_id_column (leaderboard aml_forest).
Proof.
  apply (returned_model_in_leaderboard aml_forest "xrt" (Some "logloss") "DRF_1").
  vm_compute. reflexivity.
Defined.

(** [KeyError] is the exception of the calls whose criterion is given, names
    a column of the leaderboard up to case, and is not in lowercase; the key
    is the criterion.  A call without a criterion never raises it. *)
Theorem KeyError_iff (self : H2OAutoML) (algorithm : string)
    (criterion : option string) (key : string) :
  outcome (get_best_model self algorithm criterion) = inl (KeyError key)
  <-> criterion = Some key
      /\ lower key ∈ map lower (columns (leaderboard self))
      /\ lower key <> key.
Proof.
  split.
  - call_cases self criterion; try discriminate.
    + intros H. injection H as <-. split; [reflexivity|]. split.
      * apply criteria_of_is_Some. rewrite Hkey. eauto.
      * intros E. rewrite E in Hkey. congruence.
    + rewrite default_criterion_lower in Hkey. congruence.
  - intros (-> & Hin & Hne). now apply mixed_case_criterion_KeyError.
Qed.

(** ** More about the dictionaries *)

(** Line 176: the dictionary sends a key to the last column of the frame
    with that lowercase form. *)
Theorem criteria_last_column (cols : list string) (k : string) :
  criteria_of cols !! k
  = last (List.filter (fun col => String.eqb (lower col) k) cols).
Proof.
  unfold criteria_of.
  assert (G : forall (m : gmap string string),
    foldl (fun (m : gmap string string) col => <[lower col := col]> m) m cols !! k
    = match last (List.filter (fun col => String.eqb (lower col) k) cols) with
      | Some col => Some col
      | None => m !! k
      end).
  { induction cols as [|c cols IH]; intros m; [reflexivity|].
    cbn [foldl List.filter]. rewrite IH.
    destruct (String.eqb_spec (lower c) k) as [E|E].
    - rewrite E, lookup_insert_eq.
      destruct (List.filter _ cols) as [|c' l]; [reflexivity|].
      rewrite (last_cons_cons c c' l).
      now destruct (last (c' :: l)) eqn:Hl; [|apply last_None in Hl].
    - rewrite lookup_insert_ne by exact E. reflexivity. }
  rewrite G, lookup_empty. now destruct (last _).
Qed.

Lemma dict_get_In {V : Type} (k : string) (v : V) (d : list (string * V)) :
  dict_get k d = Some v -> In (k, v) d.
Proof.
  induction d as [|[k' v'] d IH]; simpl; [discriminate|].
  destruct (String.eqb_spec k k') as [->|_].
  - intros H. injection H as ->. now left.
  - intros H. right. now apply IH.
Qed.

Lemma prefix_conflict (a b s : string) :
  String.prefix a s = true -> String.prefix b s = true ->
  String.prefix a b = true \/ String.prefix b a = true.
Proof.
  revert b s. induction a as [|x a IH]; intros [|y b] [|z s]; simpl; auto;
    try discriminate.
  destruct (ascii_dec x z) as [<-|]; [|discriminate].
  destruct (ascii_dec y x) as [->|]; [|discriminate].
  destruct (ascii_dec x x) as [_|N]; [|now destruct N].
  apply IH.
Qed.

(** The case of a family with its pattern, out of [patterns]. *)
Ltac pattern_cases H :=
  apply dict_get_In in H; cbn [patterns In] in H;
  repeat (destruct H as [H|H]; [injection H as <- <-|]); [..|destruct H].

(** Lines 154-163: each pattern takes the identifiers its family starts
    with, [base_model] those that do not start with [StackedEnsemble_]. *)
Theorem pattern_is_prefix_rule (family : string) (pattern : regex) (id : string) :
  dict_get family patterns = Some pattern ->
  re_find pattern id = family_rule family id.
Proof. apply patterns_rule. Qed.

Lemma pattern_is_prefix_rule_witness :
  re_find (Seq Bol (NegLook (Lit "StackedEnsemble_"))) "GBM_1"
  = family_rule "base_model" "GBM_1".
Proof.
  apply (pattern_is_prefix_rule "base_model"
           (Seq Bol (NegLook (Lit "StackedEnsemble_"))) "GBM_1").
  reflexivity.
Defined.

Ltac prefix_rules :=
  repeat match goal with
    | H : re_find (Seq Bol (Lit _)) _ = true |- _ => rewrite re_find_prefix in H
    | H : re_find (Seq Bol (NegLook (Lit _))) _ = true |- _ =>
        rewrite re_find_not_prefix in H
    | H : re_find (Seq Bol (Seq (Alt _ _) _)) _ = true |- _ =>
        rewrite re_find_drf in H; apply orb_true_iff in H; destruct H as [H|H]
    end.

(** An identifier is of two families only if one of them is [base_model], or
    if they are [drf] and [xrt]. *)
Theorem families_overlap (fam1 fam2 : string) (p1 p2 : regex) (id : string) :
  dict_get fam1 patterns = Some p1 ->
  dict_get fam2 patterns = Some p2 ->
  re_find p1 id = true ->
  re_find p2 id = true ->
  fam1 = fam2 \/ fam1 = "base_model" \/ fam2 = "base_model"
  \/ (fam1 = "drf" /\ fam2 = "xrt") \/ (fam1 = "xrt" /\ fam2 = "drf").
Proof.
  intros H1 H2 M1 M2. pattern_cases H1; pattern_cases H2;
    try (left; reflexivity);
    try (right; left; reflexivity);
    try (right; right; left; reflexivity);
    try (right; right; right; left; split; reflexivity);
    try (right; right; right; right; split; reflexivity);
    exfalso; prefix_rules;
    destruct (prefix_conflict _ _ _ M1 M2) as [E|E]; vm_compute in E;
    discriminate E.
Qed.

Lemma families_overlap_witness :
  "drf" = "xrt" \/ "drf" = "base_model" \/ "xrt" = "base_model"
  \/ ("drf" = "drf" /\ "xrt" = "xrt") \/ ("drf" = "xrt" /\ "xrt" = "drf").
Proof.
  apply (families_overlap "drf" "xrt"
           (Seq Bol (Seq (Alt (Lit "DRF") (Lit "XRT")) (Lit "_")))
           (Seq Bol (Lit "XRT_")) "XRT_1"); reflexivity.
Defined.

(** An identifier of the family [xrt] is of the family [drf]. *)
Theorem xrt_within_drf (p_xrt p_drf : regex) (id : string) :
  dict_get "xrt" patterns = Some p_xrt ->
  dict_get "drf" patterns = Some p_drf ->
  re_find p_xrt id = true ->
  re_find p_drf id = true.
Proof.
  intros H1 H2. injection H1 as <-. injection H2 as <-.
  rewrite re_find_prefix, re_find_drf. intros ->. apply orb_true_r.
Qed.

Lemma xrt_within_drf_witness :
  re_find (Seq Bol (Seq (Alt (Lit "DRF") (Lit "XRT")) (Lit "_"))) "XRT_1_AutoML"
  = true.
Proof.
  apply (xrt_within_drf (Seq Bol (Lit "XRT_"))
           (Seq Bol (Seq (Alt (Lit "DRF") (Lit "XRT")) (Lit "_")))
           "XRT_1_AutoML"); reflexivity.
Defined.

(** Every identifier is of one of the families [base_model] and
    [stacked_ensemble], and not of both. *)
Theorem base_model_or_stacked_ensemble (p_base p_stacked : regex) (id : string) :
  dict_get "base_model" patterns = Some p_base ->
  dict_get "stacked_ensemble" patterns = Some p_stacked ->
  re_find p_base id = negb (re_find p_stacked id).
Proof.
  intros H1 H2. injection H1 as <-. injection H2 as <-.
  now rewrite re_find_prefix, re_find_not_prefix.
Qed.

Lemma base_model_or_stacked_ensemble_witness :
  re_find (Seq Bol (NegLook (Lit "StackedEnsemble_"))) "StackedEnsemble_AllModels"
  = negb (re_find (Seq Bol (Lit "StackedEnsemble_")) "StackedEnsemble_AllModels").
Proof.
  apply (base_model_or_stacked_ensemble
           (Seq Bol (NegLook (Lit "StackedEnsemble_")))
           (Seq Bol (Lit "StackedEnsemble_")) "StackedEnsemble_AllModels");
    reflexivity.
Defined.

(** ** Witnesses of the general lemmas on a call *)

Lemma get_best_model_position_witness :
  outcome (get_best_model aml_forest "xrt" (Some "logloss"))
  = (if String.eqb "logloss" "model_id" then inl H2OServerError
     else inr (match grep (Seq Bol (Lit "XRT_"))
                       (model_id_column
                          (sorted (leaderboard aml_forest) "logloss"
                             (negb (str_in (lower "logloss") higher_is_better)))) with
               | [] => None
               | i :: _ => model_id_column (leaderboard aml_forest) !! i
               end))
  /\ outcome (get_best_model aml_forest "xrt" (Some "model_id"))
     = inl H2OServerError.
Proof.
  split.
  - apply (get_best_model_position aml_forest "xrt" "logloss" "logloss"
             (Seq Bol (Lit "XRT_"))).
    + vm_compute. reflexivity.
    + reflexivity.
  - apply (get_best_model_position aml_forest "xrt" "model_id" "model_id"
             (Seq Bol (Lit "XRT_"))).
    + vm_compute. reflexivity.
    + reflexivity.
Defined.

Lemma get_best_model_on_sorted_witness :
  outcome (get_best_model aml_gbm "GBM" (Some "logloss"))
  = inr (head (List.filter (family_rule (lower "GBM"))
                           (model_id_column (leaderboard aml_gbm)))).
Proof.
  apply (get_best_model_on_sorted aml_gbm "GBM" "logloss" "logloss"
           (Seq Bol (Lit "GBM_"))).
  - vm_compute. reflexivity.
  - reflexivity.
  - vm_compute. reflexivity.
Defined.

Lemma unknown_family_rejected_witness :
  outcome (get_best_model aml_gbm "naive_bayes" (Some "auc"))
  = inl (H2OValueError
           ("Incorrect model_type specified " +:+ dquote +:+ "naive_bayes"
            +:+ dquote +:+ ". Has to be one of " +:+ dquote
            +:+ String.concat (dquote +:+ ", " +:+ dquote)
                  ["base_model"; "deep_learning"; "drf"; "gbm"; "glm";
                   "stacked_ensemble"; "xgboost"; "xrt"]
            +:+ dquote)).
Proof.
  apply (unknown_family_rejected aml_gbm "naive_bayes" "auc" "auc").
  - vm_compute. reflexivity.
  - vm_compute. not_elem_of_list.
Defined.

Lemma no_match_returns_None_witness :
  outcome (get_best_model aml_gbm "glm" (Some "auc")) = inr None.
Proof.
  apply (no_match_returns_None aml_gbm "glm" "auc" "auc").
  - vm_compute. reflexivity.
  - discriminate.
  - vm_compute. elem_of_list.
  - repeat constructor.
Defined.

(** Where every model of the leaderboard is of the family asked for, the
    call returns the first row of the leaderboard, whatever the metric it is
    asked to rank by and the values in its column: the first match is at
    position 0 of the sorted frame, and position 0 is read in the leaderboard
    as it is. *)
Theorem all_of_family_returns_first_row (self : H2OAutoML)
    (algorithm c col : string) :
  criteria_of (columns (leaderboard self)) !! c = Some col ->
  col <> "model_id" ->
  lower algorithm ∈ dict_keys patterns ->
  Forall (fun id => family_rule (lower algorithm) id = true)
         (model_id_column (leaderboard self)) ->
  outcome (get_best_model self algorithm (Some c))
  = inr (head (model_id_column (leaderboard self))).
Proof.
  intros Hc Hm Ha Hall.
  destruct (dict_get (lower algorithm) patterns) as [pattern|] eqn:Hp;
    [|apply dict_get_None in Hp; contradiction].
  rewrite (get_best_model_explicit _ _ _ _ _ Hc Hp), _best_outcome.
  destruct (String.eqb_spec col "model_id") as [E|_]; [contradiction|].
  rewrite grep_all.
  - pose proof (sorted_length (leaderboard self) col
                  (negb (str_in (lower col) higher_is_better))) as Hlen.
    destruct (model_id_column (sorted _ _ _)) as [|x xs],
             (model_id_column (leaderboard self)) as [|y ys]; try discriminate;
      reflexivity.
  - apply sorted_Forall.
    eapply Forall_impl; [exact Hall|]. intros id Hid.
    now rewrite (patterns_rule _ _ _ Hp).
Qed.

Lemma all_of_family_returns_first_row_witness :
  outcome (get_best_model aml_gbm "base_model" (Some "auc")) = inr (Some "GBM_1").
Proof.
  apply (all_of_family_returns_first_row aml_gbm "base_model" "auc" "auc").
  - vm_compute. reflexivity.
  - discriminate.
  - vm_compute. elem_of_list.
  - repeat constructor.
Defined.
